(** * Uber pickup dashboard: the hour filter, the minute histogram and the
      midpoint of [Visualization_of_Uber_cab_pickup_data_using_Streamlit.py]

    The script loads a table of pickups (timestamp, latitude, longitude),
    lets the user pick an hour with a slider, and shows four maps of the
    pickups of that hour and a chart of pickups per minute.  This file
    embeds the computational part of the script: [load_data],
    [filterdata], [mpoint], [histdata] and the data flow of [main].

    Conventions of the embedding.
    - A [DataFrame] is the list of its rows, in row order, under the
      default index 0, 1, ..., n-1 that [pd.read_csv] gives the table.
    - The ["date/time"] column is [datetime64[ns]]: an integer count of
      nanoseconds since the epoch.  [.dt.hour] and [.dt.minute] are the
      hour-of-day and minute-of-hour fields of that instant.  The missing
      timestamp [NaT], which pandas stores as the least 64-bit integer
      and gives no hour and no minute, is not an instant: statements
      that count every row assume the batch holds none ([timestamped]).
    - The file read by [load_data] is given as its parsed rows.  A file
      without data rows loads with untyped columns, on which the [.dt]
      accessor fails: statements on [main] assume at least one row.
    - The ["lat"] and ["lon"] columns are [float64]: binary64 numbers,
      here Rocq's primitive floats.
    - A Python call either returns a value or raises: [result].
    - The decorators [st.cache_data] and [st.cache_resource] memoise a
      function on its arguments; what is modelled is the function body,
      the value computed at a cache miss. *)

From Stdlib Require Import ZArith PrimFloat Uint63.
From stdpp Require Import base tactics option list numbers.

Set Default Proof Using "Type".
Set Warnings "-inexact-float".
Local Open Scope Z_scope.

(** ** Outcomes of a call *)

(** The one exception the modelled code can raise: pandas'
    [IndexingError], "Unalignable boolean Series provided as indexer". *)
Inductive exn : Type :=
  | IndexingError.

Inductive result (A : Type) : Type :=
  | Ok (a : A)
  | Raise (e : exn).
Arguments Ok {A} a.
Arguments Raise {A} e.

#[global] Instance result_ret : MRet result := λ A, Ok.
#[global] Instance result_bind : MBind result := λ A B k c,
  match c with
  | Ok a => k a
  | Raise e => Raise e
  end.

Definition raises {A : Type} (c : result A) : Prop := ∃ e, c = Raise e.

(** ** Timestamps *)

Definition ns_per_minute : Z := 60 * 1000000000.
Definition ns_per_hour : Z := 60 * ns_per_minute.

(** [Series.dt.hour] and [Series.dt.minute] of one [datetime64[ns]] value
    (floor division, so that instants before the epoch come out right). *)
Definition hour_of (t : Z) : Z := (t / ns_per_hour) mod 24.
Definition minute_of (t : Z) : Z := (t / ns_per_minute) mod 60.

(** The instant [d] days, [h] hours, [m] minutes and [ns] nanoseconds
    after the epoch; used to write concrete rows. *)
Definition timestamp (d h m ns : Z) : Z :=
  ((d * 24 + h) * 60 + m) * ns_per_minute + ns.

(** ** Rows and frames *)

(** One row of the table read by [load_data]:
    [names=["date/time", "lat", "lon"]]. *)
Record Row : Type := mkRow {
  date_time : Z;
  lat : float;
  lon : float
}.

(** A frame with the three columns, as the list of its rows. *)
Abbreviation DataFrame := (list Row) (only parsing).

Definition dt_hour (r : Row) : Z := hour_of (date_time r).
Definition dt_minute (r : Row) : Z := minute_of (date_time r).

(** [pd.read_csv(..., nrows=30000, skiprows=1, usecols=[0, 1, 2])]:
    [file_rows] are the parsed data lines of the file, header skipped. *)
Definition nrows : nat := Z.to_nat 30000.
Definition load_data (file_rows : list Row) : DataFrame := take nrows file_rows.

(** ** Boolean indexing: [frame[key]] *)

(** The rows of [frame] at the positions where [key] is true
    ([key.nonzero()] followed by a positional take). *)
Fixpoint mask_rows (frame : DataFrame) (key : list bool) : DataFrame :=
  match frame, key with
  | r :: frame', b :: key' =>
      if b then r :: mask_rows frame' key' else mask_rows frame' key'
  | _, _ => []
  end.

(** [DataFrame.__getitem__] with a boolean [Series] [key].  pandas first
    reindexes the key to the index of the frame; with default indexes the
    labels of the frame are [0 .. length frame - 1] and those of the key
    [0 .. length key - 1], so the reindexing succeeds exactly when the
    frame is not longer than the key, and then keeps the first
    [length frame] entries of the key.  Otherwise a label of the frame is
    missing from the key and pandas raises [IndexingError].  When the key
    is computed from the frame itself, as in [filterdata] and in the
    call of [histdata] by [main], key and frame share their index and
    the pairing by position is that of pandas whatever the index is. *)
Definition getitem_bool (frame : DataFrame) (key : list bool) : result DataFrame :=
  if decide (length frame ≤ length key)%nat
  then Ok (mask_rows frame (take (length frame) key))
  else Raise IndexingError.

(** ** The hour filter *)

(** <<
    @st.cache_data
    def filterdata(df, hour_selected):
        return df[df["date/time"].dt.hour == hour_selected]
    >> *)
Definition filterdata (df : DataFrame) (hour_selected : Z) : result DataFrame :=
  getitem_bool df ((λ h, h =? hour_selected) <$> (dt_hour <$> df)).

(** The rows the filter drops: the same indexing with the negated key. *)
Definition rejected_rows (df : DataFrame) (hour_selected : Z) : DataFrame :=
  mask_rows df ((λ h, negb (h =? hour_selected)) <$> (dt_hour <$> df)).

(** ** The midpoint *)

(** The arithmetic [np.average] needs of its element type.  The program
    runs it on [float64]. *)
Class Scalar (F : Type) : Type := {
  sc_zero : F;
  sc_add : F → F → F;
  sc_div : F → F → F;
  sc_of_count : nat → F
}.

#[global] Instance float64_scalar : Scalar float := {|
  sc_zero := 0%float;
  sc_add := PrimFloat.add;
  sc_div := PrimFloat.div;
  sc_of_count n := PrimFloat.of_uint63 (Uint63.of_Z (Z.of_nat n))
|}.

(** [np.average(a)] without weights is [a.mean()]: the sum of the
    elements divided by their number.  No test on the number of elements
    guards the division: the mean of an empty [float64] array is
    [0.0 / 0], which is NaN, with a warning and no exception.  (The sum
    is taken left to right; numpy groups the additions differently on
    long arrays, of 8 elements or more, so that the two can differ in
    the last digits there.) *)
Definition np_average {F : Type} `{Scalar F} (a : list F) : F :=
  sc_div (foldl sc_add sc_zero a) (sc_of_count (length a)).

(** <<
    @st.cache_data
    def mpoint(lat, lon):
        return (np.average(lat), np.average(lon))
    >> *)
Definition mpoint {F : Type} `{Scalar F} (lat lon : list F) : result (F * F) :=
  mret (np_average lat, np_average lon).

(** ** The minute histogram *)

(** The counting loop of [np.bincount]: one increment of counter [i] per
    entry [i] of [x]. *)
Definition count_into (n : list Z) (x : list nat) : list Z :=
  foldl (λ n i, alter Z.succ i n) n x.

(** [np.bincount(x, minlength=m)]: an array of zeros, as long as [m] and
    as the largest entry of [x] need, then the counting loop. *)
Definition np_bincount (x : list nat) (minlength : nat) : list Z :=
  count_into
    (replicate (if x is [] then minlength else minlength `max` S (max_list x)) 0)
    x.

(** [np.histogram(a, bins=bins, range=(first_edge, last_edge))[0]] on
    integer data, with [bins] bins of equal width.  Values outside the
    range are dropped; the bin of [v] is
    [floor ((v - first_edge) * bins / (last_edge - first_edge))], except
    that the last bin is closed on the right: the index [bins], reached
    at [v = last_edge], is lowered to [bins - 1]. *)
Definition bin_index (bins : nat) (first_edge last_edge v : Z) : nat :=
  let i := Z.to_nat ((v - first_edge) * Z.of_nat bins / (last_edge - first_edge)) in
  if decide (i = bins) then (i - 1)%nat else i.

Definition np_histogram (a : list Z) (bins : nat) (first_edge last_edge : Z) : list Z :=
  let keep := filter (λ v, first_edge ≤ v ≤ last_edge) a in
  np_bincount (bin_index bins first_edge last_edge <$> keep) bins.

(** The module-level variables of the script: [data = pd.DataFrame()],
    rebound by [main] ([global data]) before anything reads it.
    [initial_globals] stands for the state before that rebinding and is
    only ever passed to [main]. *)
Record globals : Type := mkGlobals {
  data : DataFrame
}.

Definition initial_globals : globals := {| data := [] |}.

(** The frame [pd.DataFrame({"minute": range(60), "pickups": hist})]. *)
Record ChartData : Type := mkChartData {
  minute : list Z;
  pickups : list Z
}.

(** The key of [histdata]: hours in [[hr, hr + 1)]. *)
Definition hour_window (df : DataFrame) (hr : Z) : list bool :=
  (λ h, (h >=? hr) && (h <? hr + 1)) <$> (dt_hour <$> df).

(** First line of [histdata].  The key is computed from the argument
    [df]; the frame that is indexed is the module-level [data]. *)
Definition histdata_filtered (g : globals) (df : DataFrame) (hr : Z) : result DataFrame :=
  getitem_bool (data g) (hour_window df hr).

(** <<
    @st.cache_data
    def histdata(df, hr):
        filtered = data[(df["date/time"].dt.hour >= hr) & (df["date/time"].dt.hour < (hr + 1))]
        hist = np.histogram(filtered["date/time"].dt.minute, bins=60, range=(0, 60))[0]
        return pd.DataFrame({"minute": range(60), "pickups": hist})
    >> *)
Definition histdata (g : globals) (df : DataFrame) (hr : Z) : result ChartData :=
  filtered ← histdata_filtered g df hr;
  let hist := np_histogram (dt_minute <$> filtered) 60 0 60 in
  mret {| minute := seqZ 0 60; pickups := hist |}.

(** ** The page *)

(** What [map(data, lat, lon, zoom)] hands to the map renderer: the rows
    of the hexagon layer and the initial view. *)
Record Deck : Type := mkDeck {
  layer_data : DataFrame;
  latitude : float;
  longitude : float;
  zoom : Z
}.

Definition map (data : DataFrame) (lat lon : float) (zoom : Z) : Deck :=
  {| layer_data := data; latitude := lat; longitude := lon; zoom := zoom |}.

(** The fixed map centres of [main]. *)
Definition raja_bhoj : float * float := (23.290374%float, 77.333208%float).
Definition railway : float * float := (23.26776%float, 77.414001%float).
Definition kamlapati : float * float := (23.2231274171%float, 77.4397832066%float).
Definition zoom_level : Z := 12.

(** What one run of [main] renders: the hour range of the captions, the
    four maps and the chart. *)
Record Page : Type := mkPage {
  caption : Z * Z;
  all_city : Deck;
  airport : Deck;
  junction : Deck;
  kamlapati_station : Deck;
  chart_data : ChartData
}.

(** [main()]: [file_rows] is what the file holds, [hour_selected] what
    the slider returns ([st.slider(..., 0, 23)]).  The run rebinds the
    global [data] and renders the page, or stops at the first call that
    raises. *)
Definition main (file_rows : list Row) (hour_selected : Z) (g : globals)
    : globals * result Page :=
  let g := {| data := load_data file_rows |} in
  (g,
   midpoint ← mpoint (lat <$> data g) (lon <$> data g);
   m1 ← filterdata (data g) hour_selected;
   m2 ← filterdata (data g) hour_selected;
   m3 ← filterdata (data g) hour_selected;
   m4 ← filterdata (data g) hour_selected;
   chart ← histdata g (data g) hour_selected;
   mret {| caption := (hour_selected, (hour_selected + 1) mod 24);
           all_city := map m1 midpoint.1 midpoint.2 11;
           airport := map m2 raja_bhoj.1 raja_bhoj.2 zoom_level;
           junction := map m3 railway.1 railway.2 zoom_level;
           kamlapati_station := map m4 kamlapati.1 kamlapati.2 zoom_level;
           chart_data := chart |}).

(** ** Observables used in the statements *)

(** Sum of the bucket counts of a histogram. *)
Definition bucket_total (counts : list Z) : Z := foldr Z.add 0 counts.
Arguments bucket_total : simpl never.

(** Number of rows of [rows] whose minute-of-hour is [m]. *)
Definition pickups_at (rows : DataFrame) (m : Z) : Z :=
  Z.of_nat (length (filter (λ r, dt_minute r = m) rows)).

(** The bins of the minutes of [rows]. *)
Definition minute_bins (rows : DataFrame) : list nat :=
  (λ r, Z.to_nat (dt_minute r)) <$> rows.

(** Number of entries of [x] equal to [i]. *)
Definition occurrences (i : nat) (x : list nat) : Z :=
  Z.of_nat (length (filter (λ j, j = i) x)).

(** ** Sample rows *)

(** A pickup on day [d] at [h]:[m], at latitude and longitude [x]. *)
Definition pickup (d h m : Z) (x : float) : Row :=
  {| date_time := timestamp d h m 0; lat := x; lon := x |}.

(** Three pickups: 05:10, 05:10 and 06:45. *)
Definition three_pickups : DataFrame :=
  [pickup 19000 5 10 1; pickup 19001 5 10 2; pickup 19001 6 45 3].

(** A pickup in the last minute of a day, and one at the next midnight. *)
Definition last_minute : Row :=
  {| date_time := timestamp 19000 23 59 59999999999; lat := 1; lon := 1 |}.
Definition around_midnight : DataFrame :=
  [pickup 19000 22 0 1; last_minute; pickup 19001 0 0 1].

(** Three pickups at latitude and longitude 0.1 (the binary64 number
    nearest to it). *)
Definition tenth : float := 0x1.999999999999ap-4%float.
Definition three_tenths : DataFrame :=
  [pickup 19000 5 10 tenth; pickup 19000 5 11 tenth; pickup 19000 5 12 tenth].

(** ** Bounds of a column *)

(** [lo] is the least and [hi] the greatest element of [l], for the
    order [le]; [m] lies between them. *)
Definition within_min_max {F : Type} (le : F → F → Prop) (l : list F) (m : F) : Prop :=
  ∃ lo hi,
    lo ∈ l ∧ (∀ x, x ∈ l → le lo x) ∧
    hi ∈ l ∧ (∀ x, x ∈ l → le x hi) ∧
    le lo m ∧ le m hi.

(** The order of [float64] ([<=] of the hardware, false on NaN). *)
Definition float_le (x y : float) : Prop := PrimFloat.leb x y = true.

(** ** Observables of the further properties *)

Definition ns_per_day : Z := 24 * ns_per_hour.

(** The instant [t] lies in the hour that starts [h] hours into some
    day, before or after the epoch. *)
Definition in_hour_window (h t : Z) : Prop :=
  ∃ d, d * ns_per_day + h * ns_per_hour ≤ t < d * ns_per_day + (h + 1) * ns_per_hour.

(** Minute of the day of an instant, from 0 to 1439. *)
Definition minute_of_day (t : Z) : Z := (t / ns_per_minute) mod 1440.

(** The results of [filterdata] for the 24 positions of the slider. *)
Definition hour_slices (df : DataFrame) : result (list DataFrame) :=
  mapM (filterdata df) (seqZ 0 24).

(** The results of [histdata] for the 24 positions of the slider, the
    module-level [data] being [df]. *)
Definition hour_charts (df : DataFrame) : result (list ChartData) :=
  mapM (histdata (mkGlobals df) df) (seqZ 0 24).

(** [NaT], the missing timestamp, as [datetime64[ns]] stores it. *)
Definition NaT : Z := - 2 ^ 63.

(** A batch in which every row has a timestamp. *)
Definition timestamped (df : DataFrame) : Prop :=
  Forall (λ r, date_time r ≠ NaT) df.

(** A frame as [load_data] returns it from a file with at least one data
    row: typed columns and the default index. *)
Definition loaded (df : DataFrame) : Prop :=
  ∃ file_rows, file_rows ≠ [] ∧ df = load_data file_rows.

(** The four maps of a page. *)
Definition decks (page : Page) : list Deck :=
  [all_city page; airport page; junction page; kamlapati_station page].

(** * Properties *)

(** ** Timestamp fields *)

Lemma hour_of_range (t : Z) : 0 ≤ hour_of t < 24.
Proof. unfold hour_of. apply Z.mod_pos_bound. lia. Qed.

Lemma minute_of_range (t : Z) : 0 ≤ minute_of t < 60.
Proof. unfold minute_of. apply Z.mod_pos_bound. lia. Qed.

Lemma dt_hour_range (r : Row) : 0 ≤ dt_hour r < 24.
Proof. apply hour_of_range. Qed.

Lemma dt_minute_range (r : Row) : 0 ≤ dt_minute r < 60.
Proof. apply minute_of_range. Qed.

(** ** Boolean indexing *)

Section Indexing.
Variables (p : Row → bool) (P : Row → Prop).
Context `{!∀ r, Decision (P r)}.
Hypothesis p_reflects : ∀ r, p r = true ↔ P r.

(** Indexing a frame by a key computed row by row from the same frame
    is a filter. *)
Lemma mask_rows_fmap (df : DataFrame) :
  mask_rows df (p <$> df) = filter P df.
Proof using p_reflects.
  induction df as [|r df IH]; [done|].
  cbn [fmap list_fmap mask_rows]. rewrite filter_cons.
  destruct (p r) eqn:Hp, (decide (P r)) as [HP|HP].
  - by f_equal.
  - by apply p_reflects in Hp.
  - apply p_reflects in HP. congruence.
  - done.
Qed.

Lemma getitem_bool_fmap (df : DataFrame) :
  getitem_bool df (p <$> df) = Ok (filter P df).
Proof using p_reflects.
  unfold getitem_bool. rewrite length_fmap.
  case_decide; [|lia].
  rewrite take_ge by (rewrite length_fmap; lia).
  by rewrite mask_rows_fmap.
Qed.
End Indexing.

(** ** The hour filter *)

Lemma filterdata_filter (df : DataFrame) (h : Z) :
  filterdata df h = Ok (filter (λ r, dt_hour r = h) df).
Proof.
  unfold filterdata. rewrite <- list_fmap_compose.
  apply getitem_bool_fmap. intros r. apply Z.eqb_eq.
Qed.

Lemma rejected_rows_filter (df : DataFrame) (h : Z) :
  rejected_rows df h = filter (λ r, dt_hour r ≠ h) df.
Proof.
  unfold rejected_rows. rewrite <- list_fmap_compose.
  apply mask_rows_fmap. intros r. cbn.
  rewrite negb_true_iff. apply Z.eqb_neq.
Qed.

(** The key of [histdata] is the key of [filterdata]: on integers,
    [hr <= h < hr + 1] says [h = hr]. *)
Lemma hour_window_eq (df : DataFrame) (hr : Z) :
  hour_window df hr = (λ h, h =? hr) <$> (dt_hour <$> df).
Proof.
  unfold hour_window. apply list_fmap_ext. intros _ h _.
  destruct (Z.eqb_spec h hr) as [->|Hne].
  - rewrite Z.geb_leb, Z.leb_refl. cbn. apply Z.ltb_lt. lia.
  - destruct (h >=? hr) eqn:Hge; [|done]. cbn.
    apply Z.ltb_ge. rewrite Z.geb_leb in Hge. apply Z.leb_le in Hge. lia.
Qed.

Lemma histdata_filtered_same (df : DataFrame) (hr : Z) :
  histdata_filtered (mkGlobals df) df hr = Ok (filter (λ r, dt_hour r = hr) df).
Proof.
  unfold histdata_filtered. cbn [data]. rewrite hour_window_eq.
  apply filterdata_filter.
Qed.

(** ** Counting into buckets *)

Lemma bucket_total_cons (c : Z) (n : list Z) :
  bucket_total (c :: n) = c + bucket_total n.
Proof. reflexivity. Qed.

Lemma bucket_total_replicate (n : nat) : bucket_total (replicate n 0) = 0.
Proof. induction n as [|n IH]; [done|]. cbn [replicate]. by rewrite bucket_total_cons, IH. Qed.

Lemma bucket_total_alter (n : list Z) (i : nat) :
  (i < length n)%nat → bucket_total (alter Z.succ i n) = bucket_total n + 1.
Proof.
  revert i. induction n as [|c n IH]; intros [|i] Hi; cbn in Hi; try lia.
  - cbn. rewrite !bucket_total_cons. lia.
  - cbn [alter list_alter]. rewrite !bucket_total_cons, IH by lia. lia.
Qed.

Lemma bucket_total_nonneg (n : list Z) :
  Forall (λ c, 0 ≤ c) n → 0 ≤ bucket_total n.
Proof. induction 1; [done|]. rewrite bucket_total_cons. lia. Qed.

Section Increments.
Lemma count_into_length (x : list nat) (n : list Z) :
  length (count_into n x) = length n.
Proof.
  revert n. induction x as [|i x IH]; intros n; [done|].
  cbn. rewrite IH. apply length_alter.
Qed.

Lemma count_into_lookup (x : list nat) (n : list Z) (i : nat) :
  count_into n x !! i = (λ c, c + occurrences i x) <$> n !! i.
Proof.
  revert n. induction x as [|j x IH]; intros n.
  - cbn. destruct (n !! i) as [c|]; cbn; [|done].
    f_equal. unfold occurrences. cbn. lia.
  - cbn. rewrite IH. unfold occurrences. rewrite filter_cons.
    rewrite list_lookup_alter.
    destruct (decide (j = i)) as [->|Hne]; [|done].
    destruct (n !! i) as [c|]; cbn; [|done].
    f_equal. lia.
Qed.

Lemma count_into_total (x : list nat) (n : list Z) :
  Forall (λ i, (i < length n)%nat) x →
  bucket_total (count_into n x) = bucket_total n + Z.of_nat (length x).
Proof.
  revert n. induction x as [|i x IH]; intros n Hx; cbn; [lia|].
  inversion Hx as [|? ? Hi Hx']; subst.
  rewrite IH by (by rewrite length_alter).
  rewrite bucket_total_alter by done. lia.
Qed.

Lemma count_into_nonneg (x : list nat) (n : list Z) :
  Forall (λ c, 0 ≤ c) n → Forall (λ c, 0 ≤ c) (count_into n x).
Proof.
  intros Hn. apply Forall_lookup. intros i c Hc.
  rewrite count_into_lookup in Hc.
  destruct (n !! i) as [c0|] eqn:Hi; cbn in Hc; [|done].
  injection Hc as <-.
  pose proof (Forall_lookup_1 _ _ _ _ Hn Hi) as H0. cbn in H0.
  unfold occurrences. lia.
Qed.
End Increments.

(** When every entry is below [minlength], [np.bincount] returns exactly
    [minlength] counters. *)
Lemma np_bincount_start (x : list nat) (m : nat) :
  Forall (λ i, (i < m)%nat) x →
  (if x is [] then m else m `max` S (max_list x))%nat = m.
Proof.
  intros Hx. destruct x as [|i x]; [done|].
  assert (max_list (i :: x) ∈ i :: x) as Hin by (by apply max_list_elem_of).
  apply list_elem_of_In in Hin.
  rewrite Forall_forall in Hx. specialize (Hx _ Hin). lia.
Qed.

Section Bincount.
Variables (x : list nat) (m : nat).
Hypothesis in_range : Forall (λ i, (i < m)%nat) x.

Lemma np_bincount_length : length (np_bincount x m) = m.
Proof using in_range.
  unfold np_bincount. rewrite count_into_length, length_replicate.
  by apply np_bincount_start.
Qed.

Lemma np_bincount_lookup (i : nat) :
  (i < m)%nat → np_bincount x m !! i = Some (occurrences i x).
Proof using in_range.
  intros Hi. unfold np_bincount. rewrite count_into_lookup.
  rewrite np_bincount_start by done.
  by rewrite lookup_replicate_2.
Qed.

Lemma np_bincount_total : bucket_total (np_bincount x m) = Z.of_nat (length x).
Proof using in_range.
  unfold np_bincount. rewrite np_bincount_start by done.
  rewrite count_into_total by (by rewrite length_replicate).
  by rewrite bucket_total_replicate.
Qed.

Lemma np_bincount_nonneg : Forall (λ c, 0 ≤ c) (np_bincount x m).
Proof using Type.
  unfold np_bincount. apply count_into_nonneg.
  apply Forall_replicate. lia.
Qed.
End Bincount.

(** ** The histogram of minutes *)

Lemma filter_all {A : Type} (P : A → Prop) `{!∀ x, Decision (P x)} (l : list A) :
  Forall P l → filter P l = l.
Proof.
  induction 1 as [|x l Hx _ IH]; [done|].
  by rewrite filter_cons_True, IH.
Qed.

Lemma filter_none {A : Type} (P : A → Prop) `{!∀ x, Decision (P x)} (l : list A) :
  (∀ x, x ∈ l → ¬ P x) → filter P l = [].
Proof.
  induction l as [|x l IH]; intros Hno; [done|].
  rewrite filter_cons. destruct (decide (P x)) as [HP|_].
  - destruct (Hno x); [left|done].
  - apply IH. intros y Hy. apply Hno. by right.
Qed.

(** With the 60 unit bins on [[0, 60]], a minute is its own bin. *)
Lemma bin_index_minute (v : Z) :
  0 ≤ v < 60 → bin_index 60 0 60 v = Z.to_nat v.
Proof.
  intros Hv. unfold bin_index.
  replace ((v - 0) * Z.of_nat 60 / (60 - 0)) with v.
  - case_decide; [lia|done].
  - rewrite Z.sub_0_r. change (Z.of_nat 60) with 60. change (60 - 0) with 60.
    by rewrite Z.div_mul.
Qed.

(** The edge value 60 itself would fall in the last bin. *)
Lemma bin_index_last_edge : bin_index 60 0 60 60 = 59%nat.
Proof. reflexivity. Qed.

Lemma minute_bins_in_range (rows : DataFrame) :
  Forall (λ i, (i < 60)%nat) (minute_bins rows).
Proof.
  unfold minute_bins. apply Forall_fmap, Forall_true. intros r. cbn.
  pose proof (dt_minute_range r). lia.
Qed.

Lemma np_histogram_minutes (rows : DataFrame) :
  np_histogram (dt_minute <$> rows) 60 0 60 = np_bincount (minute_bins rows) 60.
Proof.
  unfold np_histogram, minute_bins.
  rewrite filter_all.
  - rewrite <- list_fmap_compose. f_equal.
    apply list_fmap_ext. intros _ r _. cbn.
    apply bin_index_minute, dt_minute_range.
  - apply Forall_fmap, Forall_true. intros r. cbn.
    pose proof (dt_minute_range r). lia.
Qed.

Lemma occurrences_minute_bins (rows : DataFrame) (m : Z) :
  0 ≤ m → occurrences (Z.to_nat m) (minute_bins rows) = pickups_at rows m.
Proof.
  intros Hm. unfold occurrences, pickups_at, minute_bins. f_equal.
  induction rows as [|r rows IH]; [done|].
  cbn [fmap list_fmap]. rewrite !filter_cons.
  pose proof (dt_minute_range r).
  destruct (decide (Z.to_nat (dt_minute r) = Z.to_nat m)),
           (decide (dt_minute r = m)); cbn; try lia.
Qed.

Lemma pickups_at_nonneg (rows : DataFrame) (m : Z) : 0 ≤ pickups_at rows m.
Proof. unfold pickups_at. lia. Qed.

Lemma pickups_at_app (rows1 rows2 : DataFrame) (m : Z) :
  pickups_at (rows1 ++ rows2) m = pickups_at rows1 m + pickups_at rows2 m.
Proof. unfold pickups_at. rewrite list.filter_app, length_app. lia. Qed.

Lemma pickups_at_cons (r : Row) (rows : DataFrame) (m : Z) :
  pickups_at (r :: rows) m =
  (if decide (dt_minute r = m) then 1 else 0) + pickups_at rows m.
Proof.
  unfold pickups_at. rewrite filter_cons.
  case_decide; cbn [length]; lia.
Qed.

(** The histogram of a run in which the module-level [data] is the frame
    passed as [df], as in [main]: the buckets of the rows of hour [hr]. *)
Lemma histdata_same (df : DataFrame) (hr : Z) :
  histdata (mkGlobals df) df hr =
  Ok {| minute := seqZ 0 60;
        pickups := np_bincount (minute_bins (filter (λ r, dt_hour r = hr) df)) 60 |}.
Proof.
  unfold histdata. rewrite histdata_filtered_same. cbn.
  by rewrite np_histogram_minutes.
Qed.

Lemma minute_buckets_lookup (rows : DataFrame) (m : Z) :
  0 ≤ m < 60 →
  np_bincount (minute_bins rows) 60 !! Z.to_nat m = Some (pickups_at rows m).
Proof.
  intros Hm.
  rewrite np_bincount_lookup by (apply minute_bins_in_range || lia).
  by rewrite occurrences_minute_bins by lia.
Qed.

Lemma minute_buckets_total (rows : DataFrame) :
  bucket_total (np_bincount (minute_bins rows) 60) = Z.of_nat (length rows).
Proof.
  rewrite np_bincount_total by apply minute_bins_in_range.
  unfold minute_bins. by rewrite length_fmap.
Qed.

Lemma occurrences_insert (i j : nat) (x1 x2 : list nat) :
  occurrences i (x1 ++ j :: x2) =
  occurrences i (x1 ++ x2) + (if decide (j = i) then 1 else 0).
Proof.
  unfold occurrences. rewrite !list.filter_app, filter_cons, !length_app.
  case_decide; cbn [length]; lia.
Qed.

(** One more row in minute [m] is one more in bucket [m], and nothing
    else changes. *)
Lemma minute_buckets_insert (rows1 rows2 : DataFrame) (r : Row) (i : nat) :
  np_bincount (minute_bins (rows1 ++ r :: rows2)) 60 !! i =
  (λ c, c + (if decide (Z.to_nat (dt_minute r) = i) then 1 else 0)) <$>
    np_bincount (minute_bins (rows1 ++ rows2)) 60 !! i.
Proof.
  destruct (decide (i < 60)%nat) as [Hi|Hi].
  - rewrite !np_bincount_lookup by (apply minute_bins_in_range || done).
    cbn. f_equal. unfold minute_bins.
    rewrite !fmap_app, fmap_cons. apply occurrences_insert.
  - rewrite !lookup_ge_None_2; [done| |];
      rewrite np_bincount_length by apply minute_bins_in_range; lia.
Qed.

(** ** The claims on the filter and the histogram *)

Example filterdata_three_pickups :
  filterdata three_pickups 5 = Ok (take 2 three_pickups).
Proof. reflexivity. Qed.

Example histdata_three_pickups :
  histdata (mkGlobals three_pickups) three_pickups 5 =
  Ok {| minute := seqZ 0 60; pickups := <[10%nat := 2]> (replicate 60 0) |}.
Proof. reflexivity. Qed.

Example histdata_empty (h : Z) :
  histdata (mkGlobals []) [] h =
  Ok {| minute := seqZ 0 60; pickups := replicate 60 0 |}.
Proof. reflexivity. Qed.

(** C1.  For every batch [B] and every hour [h], [filterdata B h] returns
    exactly the rows of [B] whose hour-of-day is [h], in their order in
    [B]; together with the rows whose hour differs from [h] they make up
    [B], no row lost or duplicated. *)
Theorem filterdata_exact_partition (B : DataFrame) (h : Z) :
  ∃ kept,
    filterdata B h = Ok kept ∧
    kept = filter (λ r, dt_hour r = h) B ∧
    (∀ r, r ∈ kept ↔ r ∈ B ∧ dt_hour r = h) ∧
    kept `sublist_of` B ∧
    (∀ r, r ∈ rejected_rows B h ↔ r ∈ B ∧ dt_hour r ≠ h) ∧
    rejected_rows B h `sublist_of` B ∧
    kept ++ rejected_rows B h ≡ₚ B ∧
    (length kept + length (rejected_rows B h) = length B)%nat.
Proof.
  exists (filter (λ r, dt_hour r = h) B).
  rewrite filterdata_filter, rejected_rows_filter.
  assert (filter (λ r, dt_hour r = h) B ++ filter (λ r, dt_hour r ≠ h) B ≡ₚ B)
    as Hperm by apply filter_app_complement.
  split_and!; try done.
  - intros r. rewrite list_elem_of_filter. tauto.
  - apply sublist_filter.
  - intros r. rewrite list_elem_of_filter. tauto.
  - apply sublist_filter.
  - rewrite <- length_app. by rewrite Hperm.
Qed.

(** C2.  For every batch [B] and every hour [h], the 60 bucket counts of
    the histogram of [B] at [h] add up to the number of rows that
    [filterdata B h] returns.  The histogram is the one [main] computes:
    the module-level [data] is the batch. *)
Theorem histdata_total_is_filter_length (B : DataFrame) (h : Z) :
  ∃ chart kept,
    histdata (mkGlobals B) B h = Ok chart ∧
    filterdata B h = Ok kept ∧
    length (pickups chart) = 60%nat ∧
    bucket_total (pickups chart) = Z.of_nat (length kept).
Proof.
  eexists _, _. split; [apply histdata_same|].
  split; [apply filterdata_filter|]. cbn [pickups]. split.
  - apply np_bincount_length, minute_bins_in_range.
  - apply minute_buckets_total.
Qed.

(** C3.  For every batch [B], the empty one included, and every hour [h],
    the histogram has exactly 60 buckets, for the minutes 0 to 59; every
    count is at least 0; bucket [m] holds the number of rows of hour [h]
    and minute [m], so a bucket no row matches is 0; and when no row of
    [B] is of hour [h], all 60 buckets are 0. *)
Theorem histdata_sixty_buckets (B : DataFrame) (h : Z) :
  ∃ chart,
    histdata (mkGlobals B) B h = Ok chart ∧
    minute chart = seqZ 0 60 ∧
    length (pickups chart) = 60%nat ∧
    Forall (λ c, 0 ≤ c) (pickups chart) ∧
    (∀ m, 0 ≤ m < 60 →
       pickups chart !! Z.to_nat m =
       Some (pickups_at (filter (λ r, dt_hour r = h) B) m)) ∧
    (∀ m, 0 ≤ m < 60 →
       (∀ r, r ∈ B → dt_hour r = h → dt_minute r ≠ m) →
       pickups chart !! Z.to_nat m = Some 0) ∧
    ((∀ r, r ∈ B → dt_hour r ≠ h) → pickups chart = replicate 60 0).
Proof.
  eexists. split; [apply histdata_same|]. cbn [minute pickups].
  set (kept := filter (λ r, dt_hour r = h) B).
  assert (∀ m, 0 ≤ m < 60 →
            (∀ r, r ∈ B → dt_hour r = h → dt_minute r ≠ m) →
            pickups_at kept m = 0) as Hzero.
  { intros m _ Hno. unfold pickups_at.
    replace (filter (λ r, dt_minute r = m) kept) with (@nil Row); [done|].
    symmetry. apply filter_none.
    intros r [Hh Hr]%list_elem_of_filter. by apply Hno. }
  split; [done|]. split; [apply np_bincount_length, minute_bins_in_range|].
  split; [apply np_bincount_nonneg|].
  split; [apply minute_buckets_lookup|].
  split.
  - intros m Hm Hno. rewrite minute_buckets_lookup by done.
    f_equal. by apply Hzero.
  - intros Hno. replace kept with (@nil Row); [done|].
    symmetry. by apply filter_none.
Qed.

(** C6.  For every batch [B] and every integer hour [h], the key that
    [histdata] computes from the range test [h <= hour < h + 1] is the
    key that [filterdata] computes from the test [hour = h], and the rows
    [histdata] selects with it are the rows [filterdata B h] returns (the
    module-level [data] being the batch, as in [main]). *)
Theorem histdata_window_is_filterdata (B : DataFrame) (h : Z) :
  hour_window B h = (λ x, x =? h) <$> (dt_hour <$> B) ∧
  histdata_filtered (mkGlobals B) B h = filterdata B h.
Proof.
  split; [apply hour_window_eq|].
  by rewrite histdata_filtered_same, filterdata_filter.
Qed.

(** C8.  For every batch [B] that holds a row [r] of hour 23 and minute
    59: [r] is among the rows of [filterdata B 23] and not among those of
    [filterdata B 0]; in the 60-bucket histogram of [B] at hour 23 it
    accounts for one unit of bucket 59 (without [r] bucket 59 is one less
    and every other bucket the same); and the histogram at hour 0 is the
    same with and without [r]. *)
Theorem last_minute_of_day_counted (B : DataFrame) (r : Row) :
  r ∈ B → dt_hour r = 23 → dt_minute r = 59 →
  ∃ kept kept0 chart B1 B2 chart',
    filterdata B 23 = Ok kept ∧ r ∈ kept ∧
    filterdata B 0 = Ok kept0 ∧ (r ∉ kept0) ∧
    histdata (mkGlobals B) B 23 = Ok chart ∧
    length (pickups chart) = 60%nat ∧
    B = B1 ++ r :: B2 ∧
    histdata (mkGlobals (B1 ++ B2)) (B1 ++ B2) 23 = Ok chart' ∧
    pickups chart !! 59%nat = Z.succ <$> pickups chart' !! 59%nat ∧
    (∀ i, i ≠ 59%nat → pickups chart !! i = pickups chart' !! i) ∧
    histdata (mkGlobals B) B 0 = histdata (mkGlobals (B1 ++ B2)) (B1 ++ B2) 0.
Proof.
  intros Hin Hh Hm.
  destruct (list_elem_of_split _ _ Hin) as (B1 & B2 & ->).
  eexists _, _, _, B1, B2, _.
  rewrite !filterdata_filter, !histdata_same.
  split_and!; try done; cbn [pickups].
  - by apply list_elem_of_filter.
  - intros [H0 _]%list_elem_of_filter. lia.
  - apply np_bincount_length, minute_bins_in_range.
  - rewrite !list.filter_app, filter_cons_True by done.
    rewrite minute_buckets_insert, Hm.
    rewrite decide_True by done.
    destruct (_ !! 59%nat); cbn; [f_equal; lia|done].
  - intros i Hi.
    rewrite !list.filter_app, filter_cons_True by done.
    rewrite minute_buckets_insert, Hm.
    rewrite decide_False by (change (Z.to_nat 59) with 59%nat; done).
    destruct (_ !! i); cbn; [f_equal; lia|done].
  - do 3 f_equal. rewrite !list.filter_app. f_equal.
    rewrite filter_cons. case_decide; [lia|done].
Qed.

Lemma last_minute_of_day_counted_witness :
  ∃ kept chart,
    filterdata around_midnight 23 = Ok kept ∧ last_minute ∈ kept ∧
    histdata (mkGlobals around_midnight) around_midnight 23 = Ok chart ∧
    length (pickups chart) = 60%nat.
Proof.
  destruct (last_minute_of_day_counted around_midnight last_minute)
    as (kept & _ & chart & _ & _ & _ & H1 & H2 & _ & _ & H3 & H4 & _).
  - right. left.
  - reflexivity.
  - reflexivity.
  - by exists kept, chart.
Defined.

(** C10.  For every batch [B] and every integer hour [h] outside
    [[0, 23]], [filterdata B h] raises nothing and returns the empty
    batch: the hour is neither rejected nor clamped, and no row has such
    an hour of day. *)
Theorem filterdata_hour_out_of_range (B : DataFrame) (h : Z) :
  h < 0 ∨ 23 < h →
  filterdata B h = Ok [] ∧ ¬ raises (filterdata B h).
Proof.
  intros Hh.
  assert (filterdata B h = Ok []) as ->.
  { rewrite filterdata_filter. f_equal. apply filter_none.
    intros r _ Hr. pose proof (dt_hour_range r). lia. }
  split; [done|]. by intros [e He].
Qed.

Lemma filterdata_hour_out_of_range_witness :
  filterdata around_midnight 24 = Ok [] ∧ ¬ raises (filterdata around_midnight 24).
Proof.
  apply filterdata_hour_out_of_range. right. reflexivity.
Defined.

(** ** The midpoint *)

(** C4.  [mpoint] has no failure path: it returns a pair for every batch,
    raising nothing, and on the empty batch both coordinates of the pair
    are NaN. *)
Theorem mpoint_never_raises (B : DataFrame) :
  ∃ p,
    mpoint (lat <$> B) (lon <$> B) = Ok p ∧
    ¬ raises (mpoint (lat <$> B) (lon <$> B)) ∧
    (B = [] → PrimFloat.is_nan p.1 = true ∧ PrimFloat.is_nan p.2 = true).
Proof.
  eexists. split; [reflexivity|]. split.
  - by intros [e He].
  - by intros ->.
Qed.

(** On the empty batch [mpoint] returns (NaN, NaN) and raises nothing. *)
Lemma mpoint_empty_returns_nan :
  mpoint (lat <$> []) (lon <$> []) = Ok (nan, nan) ∧
  ¬ raises (mpoint (F := float) (lat <$> []) (lon <$> [])).
Proof. split; [reflexivity|]. by intros [e He]. Qed.

(** On [float64] the mean of three latitudes 0.1 is
    0.10000000000000002, above every latitude of the batch: the mean of
    a column need not lie between its least and greatest element. *)
Lemma mpoint_float_above_max :
  mpoint (lat <$> three_tenths) (lon <$> three_tenths) =
    Ok (0x1.999999999999bp-4, 0x1.999999999999bp-4)%float ∧
  (∀ r, r ∈ three_tenths → PrimFloat.ltb (lat r) 0x1.999999999999bp-4 = true) ∧
  ¬ within_min_max float_le (lat <$> three_tenths) 0x1.999999999999bp-4%float.
Proof.
  split; [reflexivity|]. split.
  - intros r Hr. repeat (apply elem_of_cons in Hr as [->|Hr]; [reflexivity|]).
    by apply elem_of_nil in Hr.
  - intros (lo & hi & _ & _ & Hhi & _ & _ & Hle).
    assert (hi = tenth) as ->.
    { cbn in Hhi. repeat (apply elem_of_cons in Hhi as [->|Hhi]; [reflexivity|]).
      by apply elem_of_nil in Hhi. }
    vm_compute in Hle. discriminate.
Qed.

(** ** The page *)

Lemma load_data_nonempty (file_rows : list Row) :
  file_rows ≠ [] → load_data file_rows ≠ [].
Proof. by destruct file_rows. Qed.

(** C9.  In every run of [main] on a file with at least one data row,
    the midpoint is computed once, from the latitude and longitude
    columns of the whole loaded batch; it centres the first map, whose
    layer holds the rows [filterdata] returns for the selected hour.
    The centre is the same for every hour. *)
Theorem main_midpoint_of_whole_batch (file_rows : list Row) (h : Z) (g : globals) :
  file_rows ≠ [] →
  let B := load_data file_rows in
  ∃ page mid kept,
    B ≠ [] ∧
    main file_rows h g = (mkGlobals B, Ok page) ∧
    mpoint (lat <$> B) (lon <$> B) = Ok mid ∧
    filterdata B h = Ok kept ∧
    latitude (all_city page) = mid.1 ∧
    longitude (all_city page) = mid.2 ∧
    layer_data (all_city page) = kept ∧
    layer_data (airport page) = kept ∧
    layer_data (junction page) = kept ∧
    layer_data (kamlapati_station page) = kept.
Proof.
  intros Hrows B. unfold main. cbn [data]. fold B.
  rewrite filterdata_filter, histdata_same.
  eexists _, _, _. split; [by apply load_data_nonempty|].
  split; [reflexivity|]. split; [reflexivity|]. done.
Qed.

Lemma main_midpoint_of_whole_batch_witness :
  ∃ page mid,
    main three_pickups 6 initial_globals = (mkGlobals three_pickups, Ok page) ∧
    mpoint (lat <$> three_pickups) (lon <$> three_pickups) = Ok mid ∧
    latitude (all_city page) = mid.1 ∧
    longitude (all_city page) = mid.2.
Proof.
  destruct (main_midpoint_of_whole_batch three_pickups 6 initial_globals)
    as (page & mid & kept & _ & Hmain & Hmid & _ & Hlat & Hlon & _).
  - discriminate.
  - by exists page, mid.
Defined.

(** At hour 5 of [three_pickups] (latitudes 1, 2 and 3; the first two
    rows are of hour 5) the first map is centred on latitude 2, the mean
    of all three rows, while the mean of the two rows of hour 5 is 1.5. *)
Lemma main_midpoint_not_of_filtered :
  ∃ page kept,
    (main three_pickups 5 initial_globals).2 = Ok page ∧
    filterdata three_pickups 5 = Ok kept ∧
    mpoint (lat <$> kept) (lon <$> kept) = Ok (1.5, 1.5)%float ∧
    latitude (all_city page) = 2%float ∧
    latitude (all_city page) ≠ 1.5%float.
Proof.
  eexists _, _. split; [reflexivity|]. split; [reflexivity|].
  split; [reflexivity|]. split; [reflexivity|].
  intros Heq. apply (f_equal (PrimFloat.ltb 1.75)) in Heq.
  vm_compute in Heq. discriminate.
Qed.

(** ** The module-level batch in [histdata] *)

(** C7.  [histdata] indexes the module-level [data], not its argument:
    with the same arguments (one pickup at 05:20, hour 5) it counts
    minute 10 when [data] holds a pickup at 05:10, minute 20 when [data]
    is the argument itself, and raises when [data] is longer than the
    argument. *)
Lemma histdata_depends_on_module_data :
  let df := [pickup 19000 5 20 1] in
  let zeros := replicate 60 0 in
  histdata (mkGlobals [pickup 19000 5 10 1]) df 5 =
    Ok {| minute := seqZ 0 60; pickups := <[10%nat := 1]> zeros |} ∧
  histdata (mkGlobals df) df 5 =
    Ok {| minute := seqZ 0 60; pickups := <[20%nat := 1]> zeros |} ∧
  histdata (mkGlobals three_pickups) df 5 = Raise IndexingError.
Proof. done. Qed.

(** * Further properties of the code *)

(** ** Time windows *)

Lemma hour_of_window (t h : Z) :
  0 ≤ h ≤ 23 → hour_of t = h ↔ in_hour_window h t.
Proof.
  intros Hh. unfold hour_of, in_hour_window, ns_per_day, ns_per_hour, ns_per_minute.
  split.
  - intros <-. exists (t / 3600000000000 / 24).
    Z.to_euclidean_division_equations. lia.
  - intros [d Hd]. Z.to_euclidean_division_equations. lia.
Qed.

Lemma minute_of_day_split (t : Z) :
  minute_of_day t = 60 * hour_of t + minute_of t.
Proof.
  unfold minute_of_day, hour_of, minute_of, ns_per_hour, ns_per_minute.
  Z.to_euclidean_division_equations. lia.
Qed.

(** ** More on the hour filter *)

Lemma mapM_Ok {A B : Type} (f : A → result B) (g : A → B) (l : list A) :
  (∀ x, f x = Ok (g x)) → mapM f l = Ok (g <$> l).
Proof.
  intros Hf. induction l as [|x l IH]; [done|].
  cbn [mapM]. rewrite Hf, IH. reflexivity.
Qed.

Lemma filter_disjoint_union {A : Type} (P Q : A → Prop)
    `{!∀ x, Decision (P x)} `{!∀ x, Decision (Q x)} (l : list A) :
  (∀ x, P x → Q x → False) →
  filter P l ++ filter Q l ≡ₚ filter (λ x, P x ∨ Q x) l.
Proof.
  intros Hdisj. induction l as [|x l IH]; [done|].
  rewrite !filter_cons.
  destruct (decide (P x)) as [HP|HP], (decide (Q x)) as [HQ|HQ].
  - destruct (Hdisj x HP HQ).
  - rewrite decide_True by (by left). cbn. by rewrite IH.
  - rewrite decide_True by (by right).
    rewrite <- Permutation_middle. by rewrite IH.
  - rewrite decide_False by tauto. done.
Qed.

(** The slices of the hours of [hs] hold the rows whose hour is in [hs]. *)
Lemma slices_of_hours (hs : list Z) (B : DataFrame) :
  NoDup hs →
  concat ((λ h, filter (λ r, dt_hour r = h) B) <$> hs) ≡ₚ
  filter (λ r, dt_hour r ∈ hs) B.
Proof.
  induction 1 as [|a hs Ha _ IH].
  - cbn. symmetry. rewrite filter_none; [done|].
    intros r _ Hr. by apply elem_of_nil in Hr.
  - cbn [fmap list_fmap concat]. rewrite IH.
    rewrite filter_disjoint_union.
    + erewrite list_filter_iff; [done|]. intros r.
      rewrite elem_of_cons. tauto.
    + intros r <- Hr. done.
Qed.

(** X1.  For an hour [h] of the slider, [filterdata B h] keeps a row
    exactly when its instant lies in the hour-long window that starts
    [h] hours into some day, whatever the date. *)
Theorem filterdata_keeps_hour_window (B : DataFrame) (h : Z) :
  0 ≤ h ≤ 23 →
  ∃ kept,
    filterdata B h = Ok kept ∧
    ∀ r, r ∈ kept ↔ r ∈ B ∧ in_hour_window h (date_time r).
Proof.
  intros Hh. eexists. split; [apply filterdata_filter|].
  intros r. rewrite list_elem_of_filter. unfold dt_hour.
  rewrite hour_of_window by done. tauto.
Qed.

Lemma filterdata_keeps_hour_window_witness :
  ∃ kept,
    filterdata around_midnight 23 = Ok kept ∧
    ∀ r, r ∈ kept ↔ r ∈ around_midnight ∧ in_hour_window 23 (date_time r).
Proof. apply filterdata_keeps_hour_window. lia. Defined.

(** X2.  Filtering the result of [filterdata B h] again: at the same
    hour it returns the same rows, at any other hour it returns no row. *)
Theorem filterdata_twice (B : DataFrame) (h h' : Z) :
  filterdata B h ≫= (λ kept, filterdata kept h') =
  if decide (h = h') then filterdata B h else Ok [].
Proof.
  rewrite !filterdata_filter. cbn [mbind result_bind].
  rewrite filterdata_filter. unfold mbind, result_bind.
  rewrite list_filter_filter.
  case_decide as Heq.
  - subst h'. f_equal. apply list_filter_iff. intros r. tauto.
  - f_equal. apply filter_none. intros r _ [? ?]. congruence.
Qed.

(** X3.  On a batch in which every row has a timestamp, the 24 results
    of [filterdata] split the batch: none raises, slice [h] holds rows
    of hour [h] only, and the slices put together hold every row of the
    batch exactly once. *)
Theorem hour_slices_partition (B : DataFrame) :
  timestamped B →
  ∃ slices,
    hour_slices B = Ok slices ∧
    length slices = 24%nat ∧
    (∀ h kept r, 0 ≤ h → slices !! Z.to_nat h = Some kept → r ∈ kept → dt_hour r = h) ∧
    concat slices ≡ₚ B.
Proof.
  intros _.
  exists ((λ h, filter (λ r, dt_hour r = h) B) <$> seqZ 0 24).
  split; [apply mapM_Ok; intros h; apply filterdata_filter|].
  split; [by rewrite length_fmap, length_seqZ|]. split.
  - intros h kept r Hh Hlook Hr.
    rewrite list_lookup_fmap in Hlook.
    destruct (seqZ 0 24 !! Z.to_nat h) as [h0|] eqn:Hseq; [|done].
    apply lookup_seqZ in Hseq as [-> _]. cbn in Hlook.
    injection Hlook as <-. apply list_elem_of_filter in Hr as [Hr _]. lia.
  - rewrite slices_of_hours by apply NoDup_seqZ.
    rewrite filter_all; [done|].
    apply Forall_true. intros r. apply elem_of_seqZ.
    pose proof (dt_hour_range r). lia.
Qed.

Lemma around_midnight_timestamped : timestamped around_midnight.
Proof. repeat constructor; discriminate. Qed.

Lemma three_pickups_timestamped : timestamped three_pickups.
Proof. repeat constructor; discriminate. Qed.

Lemma hour_slices_partition_witness :
  ∃ slices,
    hour_slices around_midnight = Ok slices ∧
    length slices = 24%nat ∧
    concat slices ≡ₚ around_midnight.
Proof.
  destruct (hour_slices_partition around_midnight around_midnight_timestamped)
    as (slices & H1 & H2 & _ & H3).
  by exists slices.
Defined.

(** X4.  [filterdata] works part by part: on a batch made of two parts
    it returns the rows kept of the first part followed by those kept of
    the second. *)
Theorem filterdata_app (B1 B2 : DataFrame) (h : Z) :
  filterdata (B1 ++ B2) h =
  (kept1 ← filterdata B1 h; kept2 ← filterdata B2 h; mret (kept1 ++ kept2)).
Proof.
  rewrite !filterdata_filter. cbn. by rewrite list.filter_app.
Qed.

(** ** More on the histogram *)

Lemma hour_window_length (df : DataFrame) (hr : Z) :
  length (hour_window df hr) = length df.
Proof. unfold hour_window. by rewrite !length_fmap. Qed.


Lemma mask_rows_take (frame : DataFrame) (key : list bool) :
  mask_rows frame (take (length frame) key) = mask_rows frame key.
Proof.
  revert key. induction frame as [|r frame IH]; intros [|b key]; cbn; try done.
  by rewrite IH.
Qed.

(** Indexing a frame by a key computed from another frame: the rows of
    the first at the positions where the second passes the test. *)
Lemma mask_rows_zip (p : Row → bool) (frame df : DataFrame) :
  mask_rows frame (p <$> df) = fst <$> filter (λ q, p q.2 = true) (zip frame df).
Proof.
  revert df. induction frame as [|r frame IH]; intros [|r' df]; try done.
  cbn [mask_rows fmap list_fmap zip zip_with].
  rewrite filter_cons. cbn [snd]. destruct (p r') eqn:Hp.
  - rewrite decide_True by done. cbn [fmap list_fmap fst].
    f_equal. apply IH.
  - rewrite decide_False by done. apply IH.
Qed.

Lemma hour_window_test (df : DataFrame) (hr : Z) :
  hour_window df hr = (λ r, dt_hour r =? hr) <$> df.
Proof. rewrite hour_window_eq. by rewrite <- list_fmap_compose. Qed.

(** What [histdata] returns whenever the indexing succeeds. *)
Lemma histdata_ok (g : globals) (df : DataFrame) (hr : Z) :
  (length (data g) ≤ length df)%nat →
  histdata_filtered g df hr = Ok (mask_rows (data g) (hour_window df hr)) ∧
  histdata g df hr =
    Ok {| minute := seqZ 0 60;
          pickups := np_bincount (minute_bins (mask_rows (data g) (hour_window df hr))) 60 |}.
Proof.
  intros Hlen.
  assert (histdata_filtered g df hr = Ok (mask_rows (data g) (hour_window df hr))) as Hf.
  { unfold histdata_filtered, getitem_bool.
    rewrite hour_window_length, decide_True by done.
    by rewrite mask_rows_take. }
  split; [done|]. unfold histdata. rewrite Hf. cbn.
  by rewrite np_histogram_minutes.
Qed.


Lemma occurrences_app (i : nat) (x1 x2 : list nat) :
  occurrences i (x1 ++ x2) = occurrences i x1 + occurrences i x2.
Proof. unfold occurrences. rewrite list.filter_app, length_app. lia. Qed.

Lemma occurrences_Permutation (i : nat) (x1 x2 : list nat) :
  x1 ≡ₚ x2 → occurrences i x1 = occurrences i x2.
Proof. intros Hp. unfold occurrences. by rewrite Hp. Qed.



Lemma loaded_self (df : DataFrame) :
  df ≠ [] → (Z.of_nat (length df) ≤ 30000) → loaded df.
Proof.
  intros Hne Hlen. exists df. split; [done|].
  unfold load_data. symmetry. apply take_ge.
  change 30000 with (Z.of_nat nrows) in Hlen. lia.
Qed.

Lemma around_midnight_loaded : loaded around_midnight.
Proof. apply loaded_self; [discriminate|cbn; lia]. Qed.

Lemma three_pickups_loaded : loaded three_pickups.
Proof. apply loaded_self; [discriminate|cbn; lia]. Qed.

(** X7.  When the module-level [data] and the argument [df] are both
    frames as [load_data] returns them (default index, at least one
    row), every row has a timestamp and [data] is not longer than [df],
    [histdata] pairs the rows of [data] with the rows of [df] by
    position: bucket [m] counts the positions where the row of [df] is
    of hour [hr] and the row of [data] of minute [m]. *)
Theorem histdata_counts_by_position (g : globals) (df : DataFrame) (hr : Z) :
  loaded (data g) → loaded df →
  timestamped (data g) → timestamped df →
  (length (data g) ≤ length df)%nat →
  ∃ chart,
    histdata g df hr = Ok chart ∧
    ∀ m, 0 ≤ m < 60 →
      pickups chart !! Z.to_nat m =
      Some (Z.of_nat (length (filter (λ q, dt_hour q.2 = hr ∧ dt_minute q.1 = m)
                                     (zip (data g) df)))).
Proof.
  intros _ _ _ _ Hle. destruct (histdata_ok g df hr Hle) as [_ Hh].
  eexists. split; [exact Hh|]. cbn [pickups]. intros m Hm.
  rewrite minute_buckets_lookup by done. f_equal.
  rewrite hour_window_test, mask_rows_zip. unfold pickups_at. f_equal.
  generalize (zip (data g) df). intros l.
  induction l as [|[d r] l IH]; [done|].
  rewrite !filter_cons. cbn [fst snd].
  destruct (decide ((dt_hour r =? hr) = true)) as [Hh1|Hh1].
  - apply Z.eqb_eq in Hh1. cbn [fmap list_fmap fst]. rewrite filter_cons.
    destruct (decide (dt_minute d = m)) as [Hm1|Hm1].
    + rewrite decide_True by done. cbn [length]. by rewrite IH.
    + rewrite decide_False by tauto. done.
  - rewrite decide_False; [done|]. intros [Hh2 _]. apply Hh1. by apply Z.eqb_eq.
Qed.

Lemma histdata_counts_by_position_witness :
  ∃ chart,
    histdata (mkGlobals around_midnight) three_pickups 5 = Ok chart ∧
    ∀ m, 0 ≤ m < 60 →
      pickups chart !! Z.to_nat m =
      Some (Z.of_nat (length (filter (λ q, dt_hour q.2 = 5 ∧ dt_minute q.1 = m)
                                     (zip around_midnight three_pickups)))).
Proof.
  apply (histdata_counts_by_position (mkGlobals around_midnight) three_pickups 5).
  - apply around_midnight_loaded.
  - apply three_pickups_loaded.
  - apply around_midnight_timestamped.
  - apply three_pickups_timestamped.
  - cbn. lia.
Defined.

Lemma histdata_prefix (g : globals) (df extra : DataFrame) (hr : Z) :
  (length (data g) ≤ length df)%nat →
  histdata g (df ++ extra) hr = histdata g df hr.
Proof.
  intros Hle.
  destruct (histdata_ok g df hr Hle) as [_ ->].
  destruct (histdata_ok g (df ++ extra) hr) as [_ ->].
  { rewrite length_app. lia. }
  do 3 f_equal.
  rewrite !hour_window_test, fmap_app.
  rewrite <- (mask_rows_take _ (_ ++ _)), take_app_le by (rewrite length_fmap; done).
  by rewrite mask_rows_take.
Qed.

(** X8.  When the module-level [data] and the argument [df] are both
    frames as [load_data] returns them (default index, at least one
    row) and [data] is not longer than [df], what [histdata] returns
    depends on the first [len(data)] rows of [df] only: [df.head] of
    that length gives the same chart. *)
Theorem histdata_ignores_rows_past_data (g : globals) (df : DataFrame) (hr : Z) :
  loaded (data g) → loaded df →
  (length (data g) ≤ length df)%nat →
  histdata g df hr = histdata g (take (length (data g)) df) hr.
Proof.
  intros _ _ Hle.
  rewrite <- (take_drop (length (data g)) df) at 1.
  apply histdata_prefix. rewrite length_take. lia.
Qed.

Lemma histdata_ignores_rows_past_data_witness :
  histdata (mkGlobals (take 2 three_pickups)) three_pickups 5 =
  histdata (mkGlobals (take 2 three_pickups)) (take 2 three_pickups) 5.
Proof.
  apply (histdata_ignores_rows_past_data (mkGlobals (take 2 three_pickups))).
  - apply loaded_self; [discriminate|cbn; lia].
  - apply three_pickups_loaded.
  - cbn. lia.
Defined.

(** X9.  As [main] calls it (the module-level [data] being the batch),
    the histogram of a batch made of two parts is the bucket by bucket
    sum of the histograms of the parts. *)
Theorem histdata_app (B1 B2 : DataFrame) (h : Z) :
  histdata (mkGlobals (B1 ++ B2)) (B1 ++ B2) h =
  (c1 ← histdata (mkGlobals B1) B1 h;
   c2 ← histdata (mkGlobals B2) B2 h;
   mret {| minute := seqZ 0 60;
           pickups := zip_with Z.add (pickups c1) (pickups c2) |}).
Proof.
  rewrite !histdata_same. cbn [mbind result_bind mret result_ret pickups].
  do 2 f_equal. apply list_eq. intros i.
  rewrite lookup_zip_with.
  destruct (decide (i < 60)%nat) as [Hi|Hi].
  - rewrite !np_bincount_lookup by (apply minute_bins_in_range || done). cbn.
    f_equal. unfold minute_bins. rewrite list.filter_app, fmap_app.
    apply occurrences_app.
  - rewrite (lookup_ge_None_2 (np_bincount (minute_bins (filter _ (B1 ++ B2))) 60))
      by (rewrite np_bincount_length by apply minute_bins_in_range; lia).
    rewrite (lookup_ge_None_2 (np_bincount (minute_bins (filter _ B1)) 60))
      by (rewrite np_bincount_length by apply minute_bins_in_range; lia).
    done.
Qed.

(** X10.  As [main] calls it, [histdata] does not depend on the order of
    the rows of the batch. *)
Theorem histdata_Permutation (B B' : DataFrame) (h : Z) :
  B ≡ₚ B' → histdata (mkGlobals B) B h = histdata (mkGlobals B') B' h.
Proof.
  intros Hp. rewrite !histdata_same. do 2 f_equal.
  apply list_eq. intros i.
  destruct (decide (i < 60)%nat) as [Hi|Hi].
  - rewrite !np_bincount_lookup by (apply minute_bins_in_range || done).
    f_equal. apply occurrences_Permutation. unfold minute_bins. by rewrite Hp.
  - rewrite !lookup_ge_None_2; [done| |];
      rewrite np_bincount_length by apply minute_bins_in_range; lia.
Qed.

Lemma histdata_Permutation_witness :
  histdata (mkGlobals three_pickups) three_pickups 5 =
  histdata (mkGlobals (reverse three_pickups)) (reverse three_pickups) 5.
Proof. apply histdata_Permutation. symmetry. apply reverse_Permutation. Defined.

Lemma slices_cover (B : DataFrame) :
  concat ((λ h, filter (λ r, dt_hour r = h) B) <$> seqZ 0 24) ≡ₚ B.
Proof.
  rewrite slices_of_hours by apply NoDup_seqZ.
  rewrite filter_all; [done|].
  apply Forall_true. intros r. apply elem_of_seqZ.
  pose proof (dt_hour_range r). lia.
Qed.

Lemma chart_totals_of_hours (B : DataFrame) (hs : list Z) :
  bucket_total
    ((λ h, bucket_total
             (np_bincount (minute_bins (filter (λ r, dt_hour r = h) B)) 60)) <$> hs) =
  Z.of_nat (length (concat ((λ h, filter (λ r, dt_hour r = h) B) <$> hs))).
Proof.
  induction hs as [|h hs IH]; [done|].
  rewrite !fmap_cons. cbn [concat].
  rewrite bucket_total_cons, length_app, IH, minute_buckets_total. lia.
Qed.

(** X11.  As [main] calls it, on a batch in which every row has a
    timestamp, the histograms of the 24 hours of the slider account for
    every row of the batch exactly once: none of the 24 calls raises and
    their bucket counts add up to the number of rows of the batch. *)
Theorem hour_charts_total (B : DataFrame) :
  timestamped B →
  ∃ charts,
    hour_charts B = Ok charts ∧
    length charts = 24%nat ∧
    bucket_total ((λ c, bucket_total (pickups c)) <$> charts) = Z.of_nat (length B).
Proof.
  intros _.
  eexists. split; [apply mapM_Ok; intros h; apply histdata_same|].
  split; [by rewrite length_fmap, length_seqZ|].
  rewrite <- list_fmap_compose.
  etrans; [apply (chart_totals_of_hours B (seqZ 0 24))|].
  by rewrite slices_cover.
Qed.

Lemma hour_charts_total_witness :
  ∃ charts,
    hour_charts around_midnight = Ok charts ∧
    length charts = 24%nat ∧
    bucket_total ((λ c, bucket_total (pickups c)) <$> charts) = 3.
Proof.
  destruct (hour_charts_total around_midnight around_midnight_timestamped)
    as (charts & H1 & H2 & H3).
  by exists charts.
Defined.

(** X12.  As [main] calls it, [histdata] at an hour outside [[0, 23]]
    raises nothing and returns the histogram of 60 zeros. *)
Theorem histdata_hour_out_of_range (B : DataFrame) (h : Z) :
  h < 0 ∨ 23 < h →
  histdata (mkGlobals B) B h =
  Ok {| minute := seqZ 0 60; pickups := replicate 60 0 |}.
Proof.
  intros Hh. rewrite histdata_same.
  rewrite filter_none; [done|].
  intros r _ Hr. pose proof (dt_hour_range r). lia.
Qed.

Lemma histdata_hour_out_of_range_witness :
  histdata (mkGlobals around_midnight) around_midnight (-1) =
  Ok {| minute := seqZ 0 60; pickups := replicate 60 0 |}.
Proof. apply histdata_hour_out_of_range. left. reflexivity. Defined.

(** ** Loading *)

Lemma nrows_Z : Z.of_nat nrows = 30000.
Proof. reflexivity. Qed.

(** X14.  Rows of the file after the first 30000 have no effect on what
    [main] renders. *)
Theorem main_ignores_rows_past_cap (file_rows extra : list Row) (h : Z) (g : globals) :
  30000 ≤ Z.of_nat (length file_rows) →
  main (file_rows ++ extra) h g = main file_rows h g.
Proof.
  intros Hlen. unfold main, load_data.
  rewrite take_app_le; [done|]. pose proof nrows_Z. lia.
Qed.

Lemma main_ignores_rows_past_cap_witness :
  main (replicate nrows last_minute ++ three_pickups) 5 initial_globals =
  main (replicate nrows last_minute) 5 initial_globals.
Proof.
  apply main_ignores_rows_past_cap.
  rewrite length_replicate, nrows_Z. lia.
Defined.

(** ** The page *)

(** X15.  Every run of [main] on a file with at least one data row
    succeeds, for every hour.  The chart is consistent with the maps:
    its 60 buckets add up to the number of rows shown on each of the
    four maps, which show the same rows, at most 30000. *)
Theorem main_page_consistent (file_rows : list Row) (h : Z) (g : globals) :
  file_rows ≠ [] →
  ∃ page,
    (main file_rows h g).2 = Ok page ∧
    layer_data (airport page) = layer_data (all_city page) ∧
    layer_data (junction page) = layer_data (all_city page) ∧
    layer_data (kamlapati_station page) = layer_data (all_city page) ∧
    minute (chart_data page) = seqZ 0 60 ∧
    length (pickups (chart_data page)) = 60%nat ∧
    bucket_total (pickups (chart_data page)) =
      Z.of_nat (length (layer_data (all_city page))) ∧
    Z.of_nat (length (layer_data (all_city page))) ≤ 30000.
Proof.
  intros _. unfold main. cbn [data snd].
  rewrite filterdata_filter, histdata_same.
  eexists. split; [reflexivity|].
  cbn [layer_data all_city airport junction kamlapati_station chart_data map
       minute pickups].
  split_and!; try done.
  - apply np_bincount_length, minute_bins_in_range.
  - apply minute_buckets_total.
  - pose proof (length_filter (λ r, dt_hour r = h) (load_data file_rows)) as Hle.
    unfold load_data in Hle at 2. rewrite length_take in Hle.
    pose proof nrows_Z. lia.
Qed.

Lemma main_page_consistent_witness :
  ∃ page,
    (main three_pickups 5 initial_globals).2 = Ok page ∧
    bucket_total (pickups (chart_data page)) =
      Z.of_nat (length (layer_data (all_city page))).
Proof.
  destruct (main_page_consistent three_pickups 5 initial_globals)
    as (page & H1 & _ & _ & _ & _ & _ & H2 & _).
  - discriminate.
  - by exists page.
Defined.

(** X16.  In a run of [main] on a file with at least one data row, for
    an hour [h] of the slider: the captions of the page read from [h] to
    the next hour, which is 0 after 23, and every row shown on any of
    the four maps is of hour [h], inside the hour-long window that
    starts at [h]: at [h = 23] the rows are those of 23:00 to 23:59,
    none of hour 0. *)
Theorem main_caption_window (file_rows : list Row) (h : Z) (g : globals) :
  file_rows ≠ [] →
  0 ≤ h ≤ 23 →
  ∃ page,
    (main file_rows h g).2 = Ok page ∧
    caption page = (h, if decide (h = 23) then 0 else h + 1) ∧
    ∀ deck r, deck ∈ decks page → r ∈ layer_data deck →
              dt_hour r = h ∧ in_hour_window h (date_time r).
Proof.
  intros _ Hh. unfold main. cbn [data snd].
  rewrite filterdata_filter, histdata_same.
  eexists. split; [reflexivity|]. split.
  - cbn [caption]. f_equal. case_decide as H23.
    + by subst h.
    + apply Z.mod_small. lia.
  - intros deck r Hdeck Hr.
    assert (layer_data deck = filter (λ r, dt_hour r = h) (load_data file_rows)) as Hlayer.
    { unfold decks in Hdeck.
      cbn [all_city airport junction kamlapati_station] in Hdeck.
      repeat (apply elem_of_cons in Hdeck as [->|Hdeck]; [reflexivity|]).
      by apply elem_of_nil in Hdeck. }
    rewrite Hlayer in Hr. apply list_elem_of_filter in Hr as [Hr _].
    split; [done|]. by apply hour_of_window.
Qed.

Lemma main_caption_window_witness :
  ∃ page,
    (main around_midnight 23 initial_globals).2 = Ok page ∧
    caption page = (23, 0) ∧
    ∀ deck r, deck ∈ decks page → r ∈ layer_data deck →
              dt_hour r = 23 ∧ in_hour_window 23 (date_time r).
Proof.
  apply (main_caption_window around_midnight 23 initial_globals).
  - discriminate.
  - lia.
Defined.

(** ** Filter and histogram together *)

(** X17.  The histogram can be computed from the rows the filter kept:
    [histdata] on the result of [filterdata B h], at the same hour, is
    [histdata] on [B] (the module-level [data] being the batch passed,
    as in [main]). *)
Theorem histdata_of_filterdata (B : DataFrame) (h : Z) :
  filterdata B h ≫= (λ kept, histdata (mkGlobals kept) kept h) =
  histdata (mkGlobals B) B h.
Proof.
  rewrite filterdata_filter. cbn [mbind result_bind].
  rewrite !histdata_same. do 4 f_equal.
  rewrite list_filter_filter. apply list_filter_iff. intros r. tauto.
Qed.

(** X18.  As [main] calls it, bucket [m] of the histogram at hour [h]
    counts the rows of the batch whose minute of the day is
    [60 * h + m]: the hour and the minute of a row come from the same
    instant. *)
Theorem histdata_minute_of_day (B : DataFrame) (h : Z) :
  ∃ chart,
    histdata (mkGlobals B) B h = Ok chart ∧
    ∀ m, 0 ≤ m < 60 →
      pickups chart !! Z.to_nat m =
      Some (Z.of_nat (length (filter (λ r, minute_of_day (date_time r) = 60 * h + m) B))).
Proof.
  eexists. split; [apply histdata_same|]. cbn [pickups]. intros m Hm.
  rewrite minute_buckets_lookup by done. unfold pickups_at.
  rewrite list_filter_filter. do 3 f_equal.
  apply list_filter_iff. intros r. rewrite minute_of_day_split.
  fold (dt_hour r) (dt_minute r).
  pose proof (dt_minute_range r). lia.
Qed.
